(** * Primal-dual splitting solvers of pycsou ([pycsou/opt/solver/pds.py])

    A shallow embedding of [PrimalDualSplitting] and of its three variants
    ([ChambollePockSplitting], [DouglasRachfordSplitting],
    [ForwardBackwardSplitting]), with the properties of the design
    document stated and settled over it.

    Modelling conventions.
    - Python reals ([pyct.Real]) are exact real numbers [R]; a real that may
      be [math.inf] is an [xreal].  Rounding of the array backend and the
      precision coercion of [pycrt.enforce_precision] / [pycrt.coerce] are
      outside the model (the coercion is the identity here; the check
      [enforce_precision] makes on the names it is given is kept).
    - Arrays ([pyct.NDArray]) are points of an abstract type carrying the
      arithmetic the solver uses (class [Array]); the terms [f], [g], [h]
      and the operator [K] are records of black-box functions.
    - [self._mstate] is a dictionary: a finite map from keys to Python
      values; code that reads and writes it lives in a state-and-exception
      monad, so that the dictionary at the time an exception is raised is
      part of the outcome.
    - An attribute of the solver object that was never assigned is [None]
      in the record [Solver]; reading it raises [AttributeError]. *)

From Stdlib Require Import Reals Lra Psatz.
From stdpp Require Import gmap strings.

(** ** Exceptions and outcomes *)

Inductive exn : Type :=
| TypeError (msg : string)
| ValueError (msg : string)
| AttributeError (attr : string)
| KeyError (key : string)
| ZeroDivisionError.

Inductive res (A : Type) : Type :=
| Ok (a : A)
| Raise (e : exn).
Arguments Ok {A} a.
Arguments Raise {A} e.

Definition res_bind {A B} (r : res A) (k : A → res B) : res B :=
  match r with
  | Ok a => k a
  | Raise e => Raise e
  end.

Definition is_Ok {A} (r : res A) : bool :=
  match r with Ok _ => true | Raise _ => false end.

(** ** Python numbers *)

(** A real that may be [math.inf] (the default of [_lipschitz] and
    [_diff_lipschitz] before they are computed). *)
Inductive xreal : Type :=
| Finite (r : R)
| Infinite.

(** [math.isfinite] *)
Definition isfinite (v : xreal) : bool :=
  match v with Finite _ => true | Infinite => false end.

(** [a / b] on Python numbers *)
Definition py_div (a b : R) : res R :=
  if Req_dec_T b 0 then Raise ZeroDivisionError else Ok (a / b)%R.

(** [math.sqrt] *)
Definition py_sqrt (a : R) : res R :=
  if Rlt_dec a 0 then Raise (ValueError "math domain error") else Ok (sqrt a).

(** [assert v > 0] inside [try: ... except: raise ValueError(msg)] *)
Definition assert_positive (v : R) (msg : string) : res unit :=
  if Rlt_dec 0 v then Ok tt else Raise (ValueError msg).

(** Modelled from the spec: [pycrt.enforce_precision] (module
    [pycsou.runtime], not under src/).  The spec leaves the coercion of
    numeric precision to the runtime; of the decorator this model keeps the
    coercion as the identity and the check made at every call that each
    name listed in [i] is a parameter of the decorated function:
    [ValueError] is raised otherwise, before the body runs.  The decorators
    of [PrimalDualSplitting.m_init], [ChambollePockSplitting.m_init] and
    [ForwardBackwardSplitting.m_init] list parameters of these methods
    only, so that they are the identity here. *)
Definition enforce_precision (qualname : string) (i params : list string) :
    res unit :=
  match List.find (fun k => negb (List.existsb (String.eqb k) params)) i with
  | None => Ok tt
  | Some k =>
      Raise (ValueError
        (String.append "Parameter["
           (String.append k
              (String.append "] not part of "
                 (String.append qualname "() parameter list.")))))
  end.

(** ** Arrays and the black boxes *)

Class Array (point : Type) : Type := {
  pzero : point;
  padd : point → point → point;
  psub : point → point → point;
  pscale : R → point → point
}.

(** Every pycsou operator derives from [Map] and has a [shape]
    [(codim, dim)]; a dimension-agnostic functional has [dim = None]. *)
Class Shaped (A : Type) : Type := shape : A → option nat * option nat.

Section Solver.

Context {point : Type} `{Array point}.

(** A functional in the role of [f] ([grad], [_diff_lipschitz]) or of [g],
    [h] ([prox], [fenchel_prox]).  [is_NullFunc] is the answer of
    [isinstance(., pyclo.NullFunc)]. *)
Record Func : Type := {
  grad : point → point;
  prox : point → R → point;
  fenchel_prox : point → R → point;
  _diff_lipschitz : xreal;
  func_shape : option nat * option nat;
  is_NullFunc : bool
}.

(** A linear operator.  [adjoint] is called by [m_step] on [mst["z"]],
    which is [None] when there is no dual variable. *)
Record LinOp : Type := {
  apply : point → point;
  adjoint : option point → point;
  _lipschitz : xreal;
  linop_shape : option nat * option nat
}.

#[global] Instance Func_shaped : Shaped Func := func_shape.
#[global] Instance LinOp_shaped : Shaped LinOp := linop_shape.

(** Modelled from the spec: [pyclo.NullFunc], the zero functional (zero
    gradient, identity prox; the prox of its conjugate, the indicator of
    the origin, is constantly zero). *)
Definition NullFunc : Func := {|
  grad := fun _ => pzero;
  prox := fun x _ => x;
  fenchel_prox := fun _ _ => pzero;
  _diff_lipschitz := Finite 0;
  func_shape := (Some 1%nat, None);
  is_NullFunc := true
|}.

(** Modelled from the spec: [pyclo.NullOp], the zero operator. *)
Definition NullOp : LinOp := {|
  apply := fun _ => pzero;
  adjoint := fun _ => pzero;
  _lipschitz := Finite 0;
  linop_shape := (None, None)
|}.

(** Modelled from the spec: [pyclo.IdentityOp], the identity operator; its
    operator norm is not computed at creation. *)
Definition IdentityOp : LinOp := {|
  apply := fun x => x;
  adjoint := fun oz => match oz with Some z => z | None => pzero end;
  _lipschitz := Infinite;
  linop_shape := (None, None)
|}.

(** [K._lipschitz = v] *)
Definition set__lipschitz (K : LinOp) (v : xreal) : LinOp := {|
  apply := apply K;
  adjoint := adjoint K;
  _lipschitz := v;
  linop_shape := linop_shape K
|}.

(** ** Python values and the state dictionary *)

Inductive pyval : Type :=
| VNone
| VReal (r : R)
| VArr (p : point).

Definition of_opt_real (o : option R) : pyval :=
  match o with Some r => VReal r | None => VNone end.

Definition of_opt_arr (o : option point) : pyval :=
  match o with Some p => VArr p | None => VNone end.

(** the argument [K.adjoint] receives when handed a state entry *)
Definition to_opt_arr (v : pyval) : res (option point) :=
  match v with
  | VNone => Ok None
  | VArr p => Ok (Some p)
  | VReal _ => Raise (TypeError "array expected")
  end.

Definition as_real (v : pyval) : res R :=
  match v with
  | VReal r => Ok r
  | _ => Raise (TypeError "unsupported operand type(s)")
  end.

Definition as_arr (v : pyval) : res point :=
  match v with
  | VArr p => Ok p
  | _ => Raise (TypeError "unsupported operand type(s)")
  end.

Abbreviation mstate := (gmap string pyval).

(** ** The state-and-exception monad *)

Definition M (A : Type) : Type := mstate → res A * mstate.

Definition ret {A} (a : A) : M A := fun mst => (Ok a, mst).

Definition bind {A B} (m : M A) (k : A → M B) : M B :=
  fun mst =>
    match m mst with
    | (Ok a, mst') => k a mst'
    | (Raise e, mst') => (Raise e, mst')
    end.

Definition lift {A} (r : res A) : M A := fun mst => (r, mst).

Definition raise {A} (e : exn) : M A := lift (Raise e).

(** [mst[k]] *)
Definition getitem (k : string) : M pyval :=
  fun mst =>
    match mst !! k with
    | Some v => (Ok v, mst)
    | None => (Raise (KeyError k), mst)
    end.

(** [mst[k] = v] *)
Definition setitem (k : string) (v : pyval) : M unit :=
  fun mst => (Ok tt, <[k := v]> mst).

(** [self.name] for an attribute that may never have been assigned *)
Definition getattr {A} (name : string) (a : option A) : M A :=
  match a with
  | Some v => ret v
  | None => raise (AttributeError name)
  end.

Notation "'do' x <- m ;; k" := (bind m (fun x => k))
  (at level 10, x name, m at level 99, k at level 200).
Notation "'run' m ;; k" := (bind m (fun _ => k))
  (at level 10, m at level 99, k at level 200).

(** [mst[k]] used as a number, as an array *)
Definition getreal (k : string) : M R :=
  do v <- getitem k ;; lift (as_real v).

Definition getarr (k : string) : M point :=
  do v <- getitem k ;; lift (as_arr v).

(** ** The solver object *)

(** The attributes [__init__] assigns; [None] is an attribute that was
    never assigned. *)
Record Solver : Type := {
  _f : option Func;
  _g : option Func;
  _h : option Func;
  _K : option LinOp
}.

(** [PrimalDualSplitting.__init__(f, g, h, K)].  The call of
    [pycs.Solver.__init__] (folders, logging) is scaffolding and succeeds. *)
Definition __init__ (f g h : option Func) (K : option LinOp) : res Solver :=
  let self_f := match f with None => NullFunc | Some f' => f' end in
  let self_g := match g with None => NullFunc | Some g' => g' end in
  let self_h := match h with None => NullFunc | Some h' => h' end in
  res_bind
    (match h with
     | Some h' =>
         match K with
         | None => Ok (Some (set__lipschitz IdentityOp (Finite 1)))
         | Some K' =>
             if bool_decide (fst (shape K') = snd (shape h'))
                || bool_decide (snd (shape h') = None)
             then Ok (Some K')
             else Raise (ValueError
               "Operator K with shape {K.shape} is inconsistent with functional h with dimension {h.shape}.)")
         end
     | None =>
         match K with
         | None => Ok (Some NullOp)
         | Some _ => Ok None
         end
     end)
    (fun self_K =>
       match f, g, h with
       | None, None, None =>
           Raise (ValueError
             "Cannot minimize always-0 functional. At least one of Parameter[f, g, h] must be specified.")
       | _, _, _ =>
           Ok {| _f := Some self_f; _g := Some self_g; _h := Some self_h;
                 _K := self_K |}
       end).

(** [isinstance(self._h, pyclo.NullFunc)] *)
Definition h_is_NullFunc (self : Solver) : M bool :=
  do h <- getattr "_h" (_h self) ;; ret (is_NullFunc h).

(** ** Parameter policy *)

Definition set_dual_variable (self : Solver) (z : option point) : M pyval :=
  do null <- h_is_NullFunc self ;;
  if null then ret VNone
  else
    match z with
    | None => do x <- getarr "x" ;; ret (VArr x)
    | Some z' => ret (VArr z')
    end.

Definition set_beta (self : Solver) (beta : option R) : M R :=
  match beta with
  | None =>
      do f <- getattr "_f" (_f self) ;;
      match _diff_lipschitz f with
      | Finite dl => ret dl
      | Infinite =>
          raise (ValueError
            "beta: automatic inference not supported for operators with unbounded Lipschitz gradients.")
      end
  | Some b =>
      run lift (assert_positive b "beta must be positive, got {beta}.") ;;
      ret b
  end.

Definition lipschitz_msg : string :=
  "Please compute the Lipschitz constant of the linear operator K by calling its method 'lipschitz()'".

(** [set_step_sizes(tau, sigma)].  The defaults are written with exact
    arithmetic.  What the floating-point arithmetic of the runtime makes
    of the balanced default
    [(1/L^2) (-beta/4 + sqrt(beta^2/16 + L^2))] (cancellation for a large
    [beta], a square of [L] that under- or overflows, a zero divisor held
    in a numpy scalar) is outside this model: no statement of this file
    is about the value of that branch. *)
Definition set_step_sizes (self : Solver) (tau sigma : option R) : M (R * R) :=
  match tau, sigma with
  | Some t, None =>
      run lift (assert_positive t "tau must be positive, got {tau}.") ;;
      ret (t, t)
  | None, Some s =>
      run lift (assert_positive s "sigma must be positive, got {sigma}.") ;;
      ret (s, s)
  | None, None =>
      do beta <- getreal "beta" ;;
      if Rlt_dec 0 beta then
        do null <- h_is_NullFunc self ;;
        if null then
          do t <- lift (py_div 2 beta) ;;
          ret (t, 0%R)
        else
          do K <- getattr "_K" (_K self) ;;
          match _lipschitz K with
          | Finite L =>
              do a <- lift (py_div 1 (L ^ 2)) ;;
              do s <- lift (py_sqrt (beta ^ 2 / 16 + L ^ 2)) ;;
              let t := (a * (- beta / 4 + s))%R in
              ret (t, t)
          | Infinite => raise (ValueError lipschitz_msg)
          end
      else
        do null <- h_is_NullFunc self ;;
        if null then ret (1%R, 0%R)
        else
          do K <- getattr "_K" (_K self) ;;
          match _lipschitz K with
          | Finite L =>
              do t <- lift (py_div 1 L) ;;
              ret (t, t)
          | Infinite => raise (ValueError lipschitz_msg)
          end
  | Some t, Some s => ret (t, s)
  end.

Definition set_momentum_term (self : Solver) (rho : option R) : M R :=
  match rho with
  | None =>
      do beta <- getreal "beta" ;;
      if Rlt_dec 0 beta then ret (9 / 10)%R else ret 1%R
  | Some r => ret r
  end.

(** ** Initialisation and the update step *)

Definition m_init (self : Solver) (x0 : point) (z0 : option point)
    (tau sigma rho beta : option R) : M unit :=
  run setitem "x" (VArr x0) ;;
  run setitem "x_prev" (VArr x0) ;;
  do z <- set_dual_variable self z0 ;;
  run setitem "z" z ;;
  run setitem "z_prev" z ;;
  do b <- set_beta self beta ;;
  run setitem "beta" (VReal b) ;;
  do ts <- set_step_sizes self tau sigma ;;
  run setitem "tau" (VReal (fst ts)) ;;
  run setitem "sigma" (VReal (snd ts)) ;;
  do r <- set_momentum_term self rho ;;
  setitem "rho" (VReal r).

Definition m_step (self : Solver) : M unit :=
  do g <- getattr "_g" (_g self) ;;
  do x <- getarr "x" ;;
  do tau <- getreal "tau" ;;
  do f <- getattr "_f" (_f self) ;;
  do K <- getattr "_K" (_K self) ;;
  do zv <- getitem "z" ;;
  do oz <- lift (to_opt_arr zv) ;;
  let x_temp :=
    prox g (psub (psub x (pscale tau (grad f x))) (pscale tau (adjoint K oz)))
      tau in
  do null <- h_is_NullFunc self ;;
  run (if null then ret tt
       else
         let u := psub (pscale 2 x_temp) x in
         do h <- getattr "_h" (_h self) ;;
         do z <- getarr "z" ;;
         do sigma <- getreal "sigma" ;;
         let z_temp := fenchel_prox h (padd z (pscale sigma (apply K u))) sigma in
         do rho <- getreal "rho" ;;
         setitem "z" (VArr (padd (pscale rho z_temp) (pscale (1 - rho) z)))) ;;
  do rho <- getreal "rho" ;;
  setitem "x" (VArr (padd (pscale rho x_temp) (pscale (1 - rho) x))).

(** [n] calls of [m_step] in a row, as the loop driver makes them; the
    first exception ends the run. *)
Fixpoint steps (self : Solver) (n : nat) : M unit :=
  match n with
  | O => ret tt
  | S n' => run m_step self ;; steps self n'
  end.

(** ** The variants *)

(** The builtin [super.__init__(self, type=None, obj=None)]: this is the
    method [super(C).__init__] resolves to, since a one-argument [super] is
    unbound and has no instance to delegate to.  It takes at most two
    positional arguments and no keyword argument. *)
Definition super___init__ (args : nat) (kwargs : list string) : res unit :=
  match kwargs with
  | [] =>
      if (args <=? 2)%nat then Ok tt
      else Raise (TypeError "super() takes at most 2 arguments")
  | _ :: _ => Raise (TypeError "super() takes no keyword arguments")
  end.

(** the object on which no attribute has been assigned *)
Definition unassigned : Solver :=
  {| _f := None; _g := None; _h := None; _K := None |}.

(** [ChambollePockSplitting.__init__(g, h, K)] *)
Definition CPS___init__ (g h : option Func) (K : option LinOp) : res Solver :=
  res_bind
    (super___init__ 0
       ["f"; "g"; "h"; "k"; "folder"; "exist_ok"; "writeback_rate";
        "verbosity"; "log_var"])
    (fun _ => Ok unassigned).

(** [DouglasRachfordSplitting.__init__(g, h)] *)
Definition DRS___init__ (g h : option Func) : res Solver :=
  res_bind
    (super___init__ 0
       ["f"; "g"; "h"; "K"; "folder"; "exist_ok"; "writeback_rate";
        "verbosity"; "log_var"])
    (fun _ => Ok unassigned).

(** [ForwardBackwardSplitting.__init__(f, g)] *)
Definition FBS___init__ (f g : option Func) : res Solver :=
  res_bind
    (super___init__ 0
       ["f"; "g"; "h"; "K"; "folder"; "exist_ok"; "writeback_rate";
        "verbosity"; "log_var"])
    (fun _ => Ok unassigned).

(** [ChambollePockSplitting.m_init(x0, z0, tau=1.0, sigma=None, rho=None)] *)
Definition CPS_m_init (self : Solver) (x0 : point) (z0 : option point)
    (tau sigma rho : option R) : M unit :=
  run setitem "x" (VArr x0) ;;
  run setitem "x_prev" (VArr x0) ;;
  do z <- set_dual_variable self z0 ;;
  run setitem "z" z ;;
  run setitem "z_prev" z ;;
  run setitem "tau" (of_opt_real tau) ;;
  run setitem "sigma" (of_opt_real sigma) ;;
  setitem "rho" (of_opt_real rho).

Definition CPS_tau_default : option R := Some 1%R.
Definition CPS_sigma_default : option R := None.
Definition CPS_rho_default : option R := None.

(** [DouglasRachfordSplitting.m_init(x0, z0, tau=1.0)], decorated with
    [enforce_precision(i=["x0", "z0", "tau", "sigma", "rho"])]. *)
Definition DRS_m_init (self : Solver) (x0 : point) (z0 : option point)
    (tau : option R) : M unit :=
  run lift (enforce_precision "DouglasRachfordSplitting.m_init"
              ["x0"; "z0"; "tau"; "sigma"; "rho"] ["x0"; "z0"; "tau"]) ;;
  run setitem "x" (VArr x0) ;;
  run setitem "x_prev" (VArr x0) ;;
  do z <- set_dual_variable self z0 ;;
  run setitem "z" z ;;
  run setitem "z_prev" z ;;
  run setitem "tau" (of_opt_real tau) ;;
  do t <- lift (as_real (of_opt_real tau)) ;;
  do s <- lift (py_div 1 t) ;;
  run setitem "sigma" (VReal s) ;;
  setitem "rho" (VReal 1).

Definition DRS_tau_default : option R := Some 1%R.

(** [ForwardBackwardSplitting.m_init(x0, z0, tau=None, rho=1.0, beta=None)] *)
Definition FBS_m_init (self : Solver) (x0 : point) (z0 : option point)
    (tau rho beta : option R) : M unit :=
  run setitem "x" (VArr x0) ;;
  run setitem "x_prev" (VArr x0) ;;
  do z <- set_dual_variable self z0 ;;
  run setitem "z" z ;;
  run setitem "z_prev" z ;;
  run setitem "tau" (of_opt_real tau) ;;
  do b <- set_beta self beta ;;
  run setitem "beta" (VReal b) ;;
  setitem "rho" (of_opt_real rho).

Definition FBS_tau_default : option R := None.
Definition FBS_rho_default : option R := Some 1%R.
Definition FBS_beta_default : option R := None.

End Solver.

Arguments Func point : clear implicits.
Arguments LinOp point : clear implicits.
Arguments Solver point : clear implicits.
Arguments pyval point : clear implicits.

(** ** A one-dimensional instance (N = M = 1) *)

#[global] Instance R_Array : Array R := {|
  pzero := 0%R;
  padd := Rplus;
  psub := Rminus;
  pscale := Rmult
|}.

(** The examples below carry their values on the real line; the shape
    they declare is what the construction-time checks read. *)

(** [F(x) = x^2]: gradient [2 x], Lipschitz constant of the gradient 2. *)
Definition F_sq : Func R := {|
  grad := fun x => (2 * x)%R;
  prox := fun x tau => (x / (1 + 2 * tau))%R;
  fenchel_prox := fun x sigma => (x / (1 + 2 * sigma))%R;
  _diff_lipschitz := Finite 2;
  func_shape := (Some 1%nat, Some 1%nat);
  is_NullFunc := false
|}.

(** [H(z) = |z|^2 / 2], which is its own conjugate; [dim = None] declares
    it dimension-agnostic. *)
Definition half_sq_norm (dim : option nat) : Func R := {|
  grad := fun z => z;
  prox := fun z tau => (z / (1 + tau))%R;
  fenchel_prox := fun z sigma => (z / (1 + sigma))%R;
  _diff_lipschitz := Finite 1;
  func_shape := (Some 1%nat, dim);
  is_NullFunc := false
|}.

(** the operator [x -> c x], declared on dimension [n] *)
Definition scale_op (n : nat) (c : R) : LinOp R := {|
  apply := fun x => (c * x)%R;
  adjoint := fun oz => match oz with Some z => (c * z)%R | None => 0%R end;
  _lipschitz := Finite (Rabs c);
  linop_shape := (Some n, Some n)
|}.

(** the state dictionary before [fit] has stored anything *)
Definition empty_mstate : gmap string (pyval R) := ∅.

(** The forward-backward configuration: [PrimalDualSplitting(f=F_sq)]. *)
Definition fb_solver : Solver R :=
  {| _f := Some F_sq; _g := Some NullFunc; _h := Some NullFunc;
     _K := Some NullOp |}.

(** its state after [m_init(x0=5)] with no override *)
Definition fb_state : gmap string (pyval R) :=
  <["rho" := VReal (9 / 10)]>
    (<["sigma" := VReal 0]>
       (<["tau" := VReal (2 / 2)]>
          (<["beta" := VReal 2]>
             (<["z_prev" := VNone]>
                (<["z" := VNone]>
                   (<["x_prev" := VArr 5%R]>
                      (<["x" := VArr 5%R]> empty_mstate))))))).

(** A primal-dual configuration:
    [PrimalDualSplitting(f=F_sq, h=half_sq_norm, K=2 Id)]. *)
Definition pd_solver : Solver R :=
  {| _f := Some F_sq; _g := Some NullFunc;
     _h := Some (half_sq_norm (Some 1%nat)); _K := Some (scale_op 1 2) |}.

(** a state of it, with [x = 5], [z = 1], [tau = sigma = 1/4], [rho = 1] *)
Definition pd_state : gmap string (pyval R) :=
  <["rho" := VReal 1]>
    (<["sigma" := VReal (1 / 4)]>
       (<["tau" := VReal (1 / 4)]>
          (<["beta" := VReal 2]>
             (<["z_prev" := VArr 1%R]>
                (<["z" := VArr 1%R]>
                   (<["x_prev" := VArr 5%R]>
                      (<["x" := VArr 5%R]> empty_mstate))))))).

(** What [PrimalDualSplitting(f=F_sq, K=2 Id)] leaves behind. *)
Definition no_K_solver : Solver R :=
  {| _f := Some F_sq; _g := Some NullFunc; _h := Some NullFunc;
     _K := None |}.

(** the state after [ForwardBackwardSplitting.m_init(x0=5)] with the
    defaults of its signature *)
Definition fbs_state : gmap string (pyval R) :=
  <["rho" := VReal 1]>
    (<["beta" := VReal 2]>
       (<["tau" := VNone]>
          (<["z_prev" := VNone]>
             (<["z" := VNone]>
                (<["x_prev" := VArr 5%R]>
                   (<["x" := VArr 5%R]> empty_mstate)))))).

(** [F(x) = a x^2 / 2]: gradient [a x], Lipschitz constant of the
    gradient [a]. *)
Definition quad_func (a : R) : Func R := {|
  grad := fun x => (a * x)%R;
  prox := fun x tau => (x / (1 + a * tau))%R;
  fenchel_prox := fun x sigma => (x / (1 + sigma / a))%R;
  _diff_lipschitz := Finite a;
  func_shape := (Some 1%nat, Some 1%nat);
  is_NullFunc := false
|}.

(** ** States on which a step can run *)

Section Ready.

Context {point : Type} `{Array point}.

(** The entries [m_step] reads hold values of the types its arithmetic
    needs: arrays under ["x"] (and ["z"] when [h] is not null, [None]
    otherwise), numbers under ["tau"], ["rho"] (and ["sigma"] when [h] is
    not null); the four attributes are assigned. *)
Definition ready (self : Solver point) (mst : gmap string (pyval point)) :
    Prop :=
  is_Some (_f self) ∧ is_Some (_g self) ∧ is_Some (_K self) ∧
  (∃ x, mst !! "x" = Some (VArr x)) ∧
  (∃ tau, mst !! "tau" = Some (VReal tau)) ∧
  (∃ rho, mst !! "rho" = Some (VReal rho)) ∧
  match _h self with
  | Some h =>
      if is_NullFunc h then mst !! "z" = Some VNone
      else (∃ z, mst !! "z" = Some (VArr z)) ∧
           (∃ sigma, mst !! "sigma" = Some (VReal sigma))
  | None => False
  end.

End Ready.

(** ** The ReLU map of [pycsou_tests/operator/examples/test_map.py] *)

(** [ReLU(M)]: a map of shape [(M, M)]. *)
Record ReLU : Type := { relu_M : nat }.

Definition ReLU_shape (op : ReLU) : nat * nat := (relu_M op, relu_M op).

(** [ReLU.lipschitz()] *)
Definition ReLU_lipschitz (op : ReLU) : R := 1%R.

(** [ReLU.apply(arr)]: [arr.clip(min=0)], on the last axis of the array. *)
Definition ReLU_apply (op : ReLU) (arr : list R) : list R :=
  (fun x => Rmax x 0) <$> arr.

(** the Euclidean norm and the difference of two arrays, as the Lipschitz
    test of the suite computes them *)
Definition vsub (a b : list R) : list R := zip_with Rminus a b.

Definition norm2 (v : list R) : R :=
  sqrt (foldr (fun x acc => (x * x + acc)%R) 0%R v).

(** * Properties *)

(** ** Evaluation of monadic code *)

Ltac unfold_monad :=
  repeat progress
    unfold bind, ret, raise, lift, getreal, getarr, getitem, setitem, getattr,
      h_is_NullFunc in *.

Ltac step_eval :=
  repeat first
    [ progress
        unfold bind, ret, raise, lift, getreal, getarr, getitem, setitem,
          getattr, h_is_NullFunc
    | progress simpl
    | rewrite lookup_insert_eq
    | rewrite lookup_insert_ne by discriminate
    | match goal with
      | |- context [Rlt_dec ?a ?b] => destruct (Rlt_dec a b); try lra
      | |- context [Req_dec_T ?a ?b] => destruct (Req_dec_T a b); try lra
      end ].


Ltac lookup_eval :=
  repeat first
    [ rewrite lookup_insert_eq | rewrite lookup_insert_ne by discriminate ].

(** running the solver on explicit data *)
Ltac run_eval :=
  unfold m_init, m_step, set_dual_variable, set_beta, set_step_sizes,
    set_momentum_term, assert_positive, py_div, py_sqrt;
  step_eval.

(** rewriting with what is known of the object and of the dictionary *)
Ltac known_eval :=
  unfold_monad;
  repeat first
    [ progress simpl
    | rewrite lookup_insert_eq
    | rewrite lookup_insert_ne by discriminate
    | match goal with
      | Hl : ?m !! ?k = _ |- context [?m !! ?k] => rewrite Hl
      | Hl : _f ?s = _ |- context [_f ?s] => rewrite Hl
      | Hl : _g ?s = _ |- context [_g ?s] => rewrite Hl
      | Hl : _h ?s = _ |- context [_h ?s] => rewrite Hl
      | Hl : _K ?s = _ |- context [_K ?s] => rewrite Hl
      | Hl : is_NullFunc ?h = _ |- context [is_NullFunc ?h] => rewrite Hl
      | Hl : _lipschitz ?h = _ |- context [_lipschitz ?h] => rewrite Hl
      | Hl : _diff_lipschitz ?h = _ |- context [_diff_lipschitz ?h] =>
          rewrite Hl
      end ].

Section Properties.

Context {point : Type} `{Array point}.

Implicit Types (self : Solver point) (mst : gmap string (pyval point)).

(** ** The parameter policy reads the state and never writes it *)

Lemma set_dual_variable_read_only self z mst :
  snd (set_dual_variable self z mst) = mst.
Proof.
  unfold set_dual_variable. unfold_monad.
  repeat (case_match; simpl in *; simplify_eq; try done).
Qed.

Lemma set_beta_read_only self beta mst : snd (set_beta self beta mst) = mst.
Proof.
  unfold set_beta, assert_positive. unfold_monad.
  repeat (case_match; simpl in *; simplify_eq; try done).
Qed.

Lemma set_step_sizes_read_only self tau sigma mst :
  snd (set_step_sizes self tau sigma mst) = mst.
Proof.
  unfold set_step_sizes, assert_positive, py_div, py_sqrt. unfold_monad.
  repeat (case_match; simpl in *; simplify_eq; try done).
Qed.

Lemma set_momentum_term_read_only self rho mst :
  snd (set_momentum_term self rho mst) = mst.
Proof.
  unfold set_momentum_term. unfold_monad.
  repeat (case_match; simpl in *; simplify_eq; try done).
Qed.

Ltac read_only_subst :=
  repeat match goal with
  | Hq : set_dual_variable ?s ?z ?m = (_, ?g) |- _ =>
      let Hs := fresh in
      pose proof (set_dual_variable_read_only s z m) as Hs;
      rewrite Hq in Hs; simpl in Hs; subst g
  | Hq : set_beta ?s ?b ?m = (_, ?g) |- _ =>
      let Hs := fresh in
      pose proof (set_beta_read_only s b m) as Hs;
      rewrite Hq in Hs; simpl in Hs; subst g
  | Hq : set_step_sizes ?s ?t ?sg ?m = (_, ?g) |- _ =>
      let Hs := fresh in
      pose proof (set_step_sizes_read_only s t sg m) as Hs;
      rewrite Hq in Hs; simpl in Hs; subst g
  | Hq : set_momentum_term ?s ?r ?m = (_, ?g) |- _ =>
      let Hs := fresh in
      pose proof (set_momentum_term_read_only s r m) as Hs;
      rewrite Hq in Hs; simpl in Hs; subst g
  end.

(** ** Frame of the update step *)

(** With a null [h], the step writes no key other than ["x"]. *)
Lemma m_step_null_frame self h mst k :
  _h self = Some h → is_NullFunc h = true → k ≠ "x" →
  snd (m_step self mst) !! k = mst !! k.
Proof.
  intros Hh Hnull Hk. unfold m_step. unfold_monad. rewrite Hh. simpl.
  rewrite Hnull.
  repeat (case_match; simpl in *; simplify_eq; try done).
  all: by rewrite ?lookup_insert_ne.
Qed.

(** In every case the step writes no key other than ["x"] and ["z"]. *)
Lemma m_step_frame self mst k :
  k ≠ "x" → k ≠ "z" → snd (m_step self mst) !! k = mst !! k.
Proof.
  intros Hx Hz. unfold m_step. unfold_monad.
  repeat (case_match; simpl in *; simplify_eq; try done).
  all: by rewrite ?lookup_insert_ne.
Qed.

(** The invariant "no dual variable" is kept by any number of steps. *)
Lemma steps_null_frame self h n mst k :
  _h self = Some h → is_NullFunc h = true → k ≠ "x" →
  snd (steps self n mst) !! k = mst !! k.
Proof.
  intros Hh Hnull Hk. revert mst.
  induction n as [|n IH]; intros mst; [done|].
  pose proof (m_step_null_frame self h mst k Hh Hnull Hk) as Hstep.
  simpl. unfold bind. destruct (m_step self mst) as [[[]|e] mst']; simpl in *.
  - by rewrite IH.
  - done.
Qed.

(** ** The update equations *)

(** C1: one call of [m_step] computes
    [x_temp = g.prox(x - tau f.grad(x) - tau K.adjoint(z), tau)]; when [h]
    is null it stores [rho x_temp + (1 - rho) x] under ["x"] and nothing
    else; when [h] is not null it also stores
    [rho z_temp + (1 - rho) z] under ["z"], where
    [z_temp = h.fenchel_prox(z + sigma K(2 x_temp - x), sigma)] is computed
    from the value of [x] before the call.  The call returns normally. *)
Theorem C1_m_step_equations self (f g h : Func point) (K : LinOp point) mst
    (x : point) (oz : option point) (tau rho : R) :
  _f self = Some f → _g self = Some g → _h self = Some h → _K self = Some K →
  mst !! "x" = Some (VArr x) → mst !! "z" = Some (of_opt_arr oz) →
  mst !! "tau" = Some (VReal tau) → mst !! "rho" = Some (VReal rho) →
  let x_temp :=
    prox g (psub (psub x (pscale tau (grad f x))) (pscale tau (adjoint K oz)))
      tau in
  let x_new := padd (pscale rho x_temp) (pscale (1 - rho) x) in
  (is_NullFunc h = true →
     m_step self mst = (Ok tt, <["x" := VArr x_new]> mst)) ∧
  (is_NullFunc h = false →
     ∀ (z : point) (sigma : R),
       oz = Some z → mst !! "sigma" = Some (VReal sigma) →
       let u := psub (pscale 2 x_temp) x in
       let z_temp :=
         fenchel_prox h (padd z (pscale sigma (apply K u))) sigma in
       let z_new := padd (pscale rho z_temp) (pscale (1 - rho) z) in
       m_step self mst =
         (Ok tt, <["x" := VArr x_new]> (<["z" := VArr z_new]> mst))).
Proof.
  intros Hf Hg Hh HK Hx Hz Ht Hr x_temp x_new. split.
  - intros Hnull. unfold m_step. known_eval.
    destruct oz; known_eval; reflexivity.
  - intros Hnull z sigma -> Hs u z_temp z_new. simpl in Hz.
    unfold m_step. known_eval. reflexivity.
Qed.

(** ** No dual variable without [h] *)

(** C4: when [h] is a null functional, [m_init] stores [None] under ["z"]
    and ["z_prev"] (whatever happens later in the call), and after any
    number of [m_step] calls both entries are still [None]: the step
    writes no key but ["x"]. *)
Theorem C4_null_h_no_dual_state self h (x0 : point) (z0 : option point)
    (tau sigma rho beta : option R) mst0 (n : nat) :
  _h self = Some h → is_NullFunc h = true →
  let mst1 := snd (m_init self x0 z0 tau sigma rho beta mst0) in
  let mst2 := snd (steps self n mst1) in
  (mst1 !! "z" = Some VNone ∧ mst1 !! "z_prev" = Some VNone) ∧
  (mst2 !! "z" = Some VNone ∧ mst2 !! "z_prev" = Some VNone) ∧
  (∀ mst k, k ≠ "x" → snd (m_step self mst) !! k = mst !! k).
Proof.
  intros Hh Hnull mst1 mst2.
  assert (mst1 !! "z" = Some VNone ∧ mst1 !! "z_prev" = Some VNone) as [Hz Hzp].
  { subst mst1. unfold m_init, set_dual_variable. known_eval.
    repeat (case_match; simpl in *; simplify_eq).
    all: read_only_subst.
    all: by repeat first
      [ rewrite lookup_insert_eq | rewrite lookup_insert_ne by discriminate ]. }
  split; [done|]. split.
  - subst mst2. by rewrite !(steps_null_frame self h).
  - intros mst k Hk. by apply (m_step_null_frame self h).
Qed.

(** C7 (amended): [m_step] updates ["x"] (and ["z"] when [h] is not
    null) and nothing else.  Whether the call returns or raises,
    ["x_prev"], ["z_prev"] and every entry other than ["x"] and ["z"] have
    after it the value they had before it.  On a state holding an array
    under ["x"] and numbers under ["tau"] and ["rho"], the call stores
    [rho x_temp + (1 - rho) x] under ["x"]; with a null [h] it leaves
    ["z"] as it was, and with a non-null [h] (an array under ["z"], a
    number under ["sigma"]) it stores [rho z_temp + (1 - rho) z] under
    ["z"]. *)
Theorem C7_m_step_writes_x_z_only self mst :
  (snd (m_step self mst) !! "x_prev" = mst !! "x_prev" ∧
   snd (m_step self mst) !! "z_prev" = mst !! "z_prev" ∧
   (∀ k : string,
      k ≠ "x" → k ≠ "z" → snd (m_step self mst) !! k = mst !! k)) ∧
  (∀ (f g h : Func point) (K : LinOp point) (x : point) (oz : option point)
     (tau rho : R),
     _f self = Some f → _g self = Some g → _h self = Some h →
     _K self = Some K →
     mst !! "x" = Some (VArr x) → mst !! "z" = Some (of_opt_arr oz) →
     mst !! "tau" = Some (VReal tau) → mst !! "rho" = Some (VReal rho) →
     let x_temp :=
       prox g
         (psub (psub x (pscale tau (grad f x))) (pscale tau (adjoint K oz)))
         tau in
     let x_new := padd (pscale rho x_temp) (pscale (1 - rho) x) in
     (is_NullFunc h = true →
        snd (m_step self mst) !! "x" = Some (VArr x_new) ∧
        snd (m_step self mst) !! "z" = mst !! "z") ∧
     (is_NullFunc h = false →
        ∀ (z : point) (sigma : R),
          oz = Some z → mst !! "sigma" = Some (VReal sigma) →
          let u := psub (pscale 2 x_temp) x in
          let z_temp :=
            fenchel_prox h (padd z (pscale sigma (apply K u))) sigma in
          snd (m_step self mst) !! "x" = Some (VArr x_new) ∧
          snd (m_step self mst) !! "z"
            = Some (VArr (padd (pscale rho z_temp) (pscale (1 - rho) z))))).
Proof.
  split.
  - split; [|split].
    + by apply m_step_frame.
    + by apply m_step_frame.
    + intros k Hx Hz. by apply m_step_frame.
  - intros f g h K x oz tau rho Hf Hg Hh HK Hx Hz Ht Hr x_temp x_new. split.
    + intros Hnull. unfold m_step. known_eval.
      destruct oz; known_eval; lookup_eval; by rewrite ?Hz.
    + intros Hnull z sigma -> Hs u z_temp. simpl in Hz.
      unfold m_step. known_eval. by lookup_eval.
Qed.

(** ** Checks made on overrides *)

(** A supplied [rho] goes through [m_init] unread: the call ends the same
    way whatever its value, and a call that returns has stored it. *)
Lemma m_init_rho_supplied self (x0 : point) (z0 : option point)
    (tau sigma beta : option R) (r : R) mst :
  let out := m_init self x0 z0 tau sigma (Some r) beta mst in
  (fst out = Ok tt ∧ snd out !! "rho" = Some (VReal r) ∧
   ∀ r', fst (m_init self x0 z0 tau sigma (Some r') beta mst) = Ok tt) ∨
  (∃ e, ∀ r', fst (m_init self x0 z0 tau sigma (Some r') beta mst) = Raise e).
Proof.
  unfold m_init, set_momentum_term. unfold_monad. simpl.
  destruct (set_dual_variable _ _ _) as [[zv|e] m1]; simpl; [|by right; eexists].
  destruct (set_beta _ _ _) as [[b|e] m2]; simpl; [|by right; eexists].
  destruct (set_step_sizes _ _ _ _) as [[ts|e] m3]; simpl;
    [|by right; eexists].
  left. by rewrite lookup_insert_eq.
Qed.

(** Step sizes supplied together go through [m_init] unread as well. *)
Lemma m_init_step_sizes_supplied self (x0 : point) (z0 : option point)
    (rho beta : option R) (t s : R) mst :
  let out := m_init self x0 z0 (Some t) (Some s) rho beta mst in
  (fst out = Ok tt ∧ snd out !! "tau" = Some (VReal t) ∧
   snd out !! "sigma" = Some (VReal s) ∧
   ∀ t' s',
     fst (m_init self x0 z0 (Some t') (Some s') rho beta mst) = Ok tt) ∨
  (∃ e, ∀ t' s',
     fst (m_init self x0 z0 (Some t') (Some s') rho beta mst) = Raise e).
Proof.
  unfold m_init, set_step_sizes, set_momentum_term. unfold_monad. simpl.
  destruct (set_dual_variable _ _ _) as [[zv|e] m1]; simpl; [|by right; eexists].
  destruct (set_beta _ _ _) as [[b|e] m2]; simpl; [|by right; eexists].
  left. destruct rho as [r|]; simpl.
  - split; [done|]. lookup_eval. by repeat split.
  - split; [|split; [|split]]; try intros t' s'.
    all: lookup_eval; simpl; destruct (Rlt_dec 0 b); simpl; by lookup_eval.
Qed.

(** C8 (amended): [m_init] checks neither a supplied [rho] nor step sizes
    supplied together: for these the call ends the same way whatever the
    values, and when it returns they are stored as given, non-positive
    values included.  The sign of a step size is checked when it is
    supplied alone: with [tau] alone, or [sigma] alone, and non-positive,
    the call raises [ValueError] (the design document's configuration
    error) and has stored nothing but the initial points (and [beta]):
    no ["tau"], no ["sigma"], no ["rho"]. *)
Theorem C8_override_checks self (f h : Func point) (x0 : point)
    (z0 : option point) mst :
  _f self = Some f → _h self = Some h →
  (∀ (r r' : R) (tau sigma beta : option R),
     let out := m_init self x0 z0 tau sigma (Some r) beta mst in
     fst out = fst (m_init self x0 z0 tau sigma (Some r') beta mst) ∧
     (fst out = Ok tt → snd out !! "rho" = Some (VReal r))) ∧
  (∀ (t s t' s' : R) (rho beta : option R),
     let out := m_init self x0 z0 (Some t) (Some s) rho beta mst in
     fst out = fst (m_init self x0 z0 (Some t') (Some s') rho beta mst) ∧
     (fst out = Ok tt →
        snd out !! "tau" = Some (VReal t) ∧
        snd out !! "sigma" = Some (VReal s))) ∧
  (∀ (t : R) (rho beta : option R), (t <= 0)%R →
     let out := m_init self x0 z0 (Some t) None rho beta mst in
     (∃ msg, fst out = Raise (ValueError msg)) ∧
     snd out !! "tau" = mst !! "tau" ∧
     snd out !! "sigma" = mst !! "sigma" ∧
     snd out !! "rho" = mst !! "rho" ∧
     (∀ k : string,
        k ≠ "x" → k ≠ "x_prev" → k ≠ "z" → k ≠ "z_prev" → k ≠ "beta" →
        snd out !! k = mst !! k)) ∧
  (∀ (s : R) (rho beta : option R), (s <= 0)%R →
     let out := m_init self x0 z0 None (Some s) rho beta mst in
     (∃ msg, fst out = Raise (ValueError msg)) ∧
     snd out !! "tau" = mst !! "tau" ∧
     snd out !! "sigma" = mst !! "sigma" ∧
     snd out !! "rho" = mst !! "rho" ∧
     (∀ k : string,
        k ≠ "x" → k ≠ "x_prev" → k ≠ "z" → k ≠ "z_prev" → k ≠ "beta" →
        snd out !! k = mst !! k)).
Proof.
  intros Hf Hh. split; [|split; [|split]].
  - intros r r' tau sigma beta out. subst out.
    destruct (m_init_rho_supplied self x0 z0 tau sigma beta r mst)
      as [(Hok & Hrho & Hall)|[e He]].
    + split; [by rewrite Hok, Hall|done].
    + split; [by rewrite !He|]. rewrite He. done.
  - intros t s t' s' rho beta out. subst out.
    destruct (m_init_step_sizes_supplied self x0 z0 rho beta t s mst)
      as [(Hok & Htau & Hsigma & Hall)|[e He]].
    + split; [by rewrite Hok, Hall|done].
    + split; [by rewrite !He|]. rewrite He. done.
  - intros t rho beta Ht out.
    assert (∀ k : string,
      k ≠ "x" → k ≠ "x_prev" → k ≠ "z" → k ≠ "z_prev" → k ≠ "beta" →
      snd out !! k = mst !! k) as Hframe.
    { intros k Hk1 Hk2 Hk3 Hk4 Hk5. subst out.
      unfold m_init, set_dual_variable, set_beta, set_step_sizes,
        assert_positive.
      known_eval. destruct (Rlt_dec 0 t); [lra|].
      destruct (is_NullFunc h), z0, beta as [b|]; known_eval;
        try destruct (Rlt_dec 0 b); try destruct (_diff_lipschitz f);
        known_eval; by rewrite ?lookup_insert_ne. }
    split; [|by repeat split; try apply Hframe].
    subst out.
    unfold m_init, set_dual_variable, set_beta, set_step_sizes,
      assert_positive.
    known_eval. destruct (Rlt_dec 0 t); [lra|].
    destruct (is_NullFunc h), z0, beta as [b|]; known_eval;
      try destruct (Rlt_dec 0 b); try destruct (_diff_lipschitz f);
      known_eval; by eexists.
  - intros s rho beta Hs out.
    assert (∀ k : string,
      k ≠ "x" → k ≠ "x_prev" → k ≠ "z" → k ≠ "z_prev" → k ≠ "beta" →
      snd out !! k = mst !! k) as Hframe.
    { intros k Hk1 Hk2 Hk3 Hk4 Hk5. subst out.
      unfold m_init, set_dual_variable, set_beta, set_step_sizes,
        assert_positive.
      known_eval. destruct (Rlt_dec 0 s); [lra|].
      destruct (is_NullFunc h), z0, beta as [b|]; known_eval;
        try destruct (Rlt_dec 0 b); try destruct (_diff_lipschitz f);
        known_eval; by rewrite ?lookup_insert_ne. }
    split; [|by repeat split; try apply Hframe].
    subst out.
    unfold m_init, set_dual_variable, set_beta, set_step_sizes,
      assert_positive.
    known_eval. destruct (Rlt_dec 0 s); [lra|].
    destruct (is_NullFunc h), z0, beta as [b|]; known_eval;
      try destruct (Rlt_dec 0 b); try destruct (_diff_lipschitz f);
      known_eval; by eexists.
Qed.

(** ** Construction *)

(** With [h] given and no [K], the operator is the identity with operator
    norm 1. *)
Lemma init_identity_default (f g : option (Func point)) (h : Func point) :
  ∃ self, __init__ f g (Some h) None = Ok self ∧
    _K self = Some (set__lipschitz IdentityOp (Finite 1)) ∧
    _h self = Some h.
Proof. destruct f, g; eexists; (split; [reflexivity|done]). Qed.

(** With neither [h] nor [K], the operator is the null operator. *)
Lemma init_null_default (f g : option (Func point)) :
  (is_Some f ∨ is_Some g) →
  ∃ self, __init__ f g None None = Ok self ∧
    _K self = Some NullOp ∧ _h self = Some NullFunc.
Proof.
  intros [[f' ->]|[g' ->]]; [destruct g | destruct f];
    eexists; (split; [reflexivity|done]).
Qed.

(** With all three terms absent, construction fails. *)
Lemma init_all_null (K : option (LinOp point)) :
  is_Ok (__init__ None None None K) = false.
Proof. by destruct K. Qed.

(** C9: with [h] and [K] both supplied and of mismatched dimensions ([h]
    declares the domain dimension [m], [K] a codomain dimension other than
    [m]), the constructor raises [ValueError], the configuration error of
    the design document: the mismatch is found at construction, before
    any state exists.  (A dimension-agnostic [h] declares no dimension to
    mismatch: see C10.) *)
Theorem C9_dimension_mismatch (f g : option (Func point)) (h : Func point)
    (K : LinOp point) (m : nat) :
  snd (shape h) = Some m → fst (shape K) ≠ Some m →
  __init__ f g (Some h) (Some K) =
    Raise (ValueError
      "Operator K with shape {K.shape} is inconsistent with functional h with dimension {h.shape}.)").
Proof.
  intros Hm HK. unfold __init__. rewrite Hm.
  rewrite bool_decide_eq_false_2 by done.
  rewrite bool_decide_eq_false_2 by done.
  reflexivity.
Qed.

(** C10: with [h] supplied and dimension-agnostic ([h.shape[1]] is
    [None]), the constructor accepts every supplied [K], whatever its
    shape, and keeps it as the operator. *)
Theorem C10_agnostic_h_accepts_any_K (f g : option (Func point))
    (h : Func point) (K : LinOp point) :
  snd (shape h) = None →
  ∃ self, __init__ f g (Some h) (Some K) = Ok self ∧
    _K self = Some K ∧ _h self = Some h.
Proof.
  intros Hd. unfold __init__. rewrite Hd.
  rewrite (bool_decide_eq_true_2 (None = None)) by done.
  rewrite orb_true_r. simpl.
  destruct f, g; eexists; (split; [reflexivity|done]).
Qed.

End Properties.

(** * The properties on the real line *)

(** ** The worked scenario *)

(** C2: for [F(x) = x^2] ([beta = 2]) with [g], [h] and [K] absent and no
    override, [m_init] from [x0 = 5] resolves [tau = 2/beta = 1] and
    [rho = 0.9] (and no dual variable); the candidate of the first step is
    [x_temp = 5 - 1 (2 5) = -5], the prox of the null [g] being the
    identity, and the step stores [x = 0.9 (-5) + 0.1 5 = -4]. *)
Theorem C2_forward_backward_scenario :
  __init__ (Some F_sq) None None None = Ok fb_solver ∧
  m_init fb_solver 5%R None None None None None empty_mstate
    = (Ok tt, fb_state) ∧
  fb_state !! "tau" = Some (VReal 1) ∧
  fb_state !! "rho" = Some (VReal (9 / 10)) ∧
  fb_state !! "z" = Some VNone ∧
  prox NullFunc (5 - 1 * grad F_sq 5 - 1 * adjoint NullOp None)%R 1%R
    = (-5)%R ∧
  m_step fb_solver fb_state = (Ok tt, <["x" := VArr (-4)%R]> fb_state).
Proof.
  split; [reflexivity|]. split; [run_eval; reflexivity|].
  unfold fb_state.
  split; [lookup_eval; do 2 f_equal; lra|].
  split; [by lookup_eval|].
  split; [by lookup_eval|].
  split; [simpl; lra|].
  run_eval. do 3 f_equal. lra.
Qed.

(** ** Defects *)

(** C6 (the code at the failing input): [PrimalDualSplitting(f=F_sq,
    K=2 Id)], without [h].  The constructor returns normally and assigns
    no [_K] at all, where with no [K] it assigns the null operator;
    [m_init] does not notice, and the first [m_step] raises
    [AttributeError]. *)
Theorem C6_K_left_unassigned_without_h :
  __init__ (Some F_sq) None None (Some (scale_op 1 2)) = Ok no_K_solver ∧
  _K no_K_solver = None ∧
  __init__ (Some F_sq) None None None = Ok fb_solver ∧
  _K fb_solver = Some NullOp ∧
  m_init no_K_solver 5%R None None None None None empty_mstate
    = (Ok tt, fb_state) ∧
  m_step no_K_solver fb_state = (Raise (AttributeError "_K"), fb_state).
Proof.
  split; [reflexivity|]. split; [reflexivity|].
  split; [reflexivity|]. split; [reflexivity|].
  split; [run_eval; reflexivity|].
  unfold fb_state. run_eval. reflexivity.
Qed.

(** C5 (the code at the failing input): none of the three variants can be
    constructed, whatever the arguments: [super(C).__init__(f=..., ...)]
    raises [TypeError].  Run on a solver built by the base class,
    [ChambollePockSplitting.m_init] with its defaults stores [tau = 1] and
    [None] for [sigma] and [rho]; [DouglasRachfordSplitting.m_init] raises
    [ValueError] before its body runs, its decorator naming [sigma] and
    [rho], which are no parameters of the method (the body would store
    [tau], [1/tau] and [1]); [ForwardBackwardSplitting.m_init] stores
    [rho = 1] and [None] for [tau], after which [m_step] raises
    [TypeError]. *)
Theorem C5_variants_fail_to_construct :
  (∀ (g h : option (Func R)) (K : option (LinOp R)),
     CPS___init__ g h K
       = Raise (TypeError "super() takes no keyword arguments")) ∧
  (∀ g h : option (Func R),
     DRS___init__ g h
       = Raise (TypeError "super() takes no keyword arguments")) ∧
  (∀ f g : option (Func R),
     FBS___init__ f g
       = Raise (TypeError "super() takes no keyword arguments")) ∧
  (let out :=
     CPS_m_init pd_solver 5%R None CPS_tau_default CPS_sigma_default
       CPS_rho_default empty_mstate in
   fst out = Ok tt ∧ snd out !! "tau" = Some (VReal 1) ∧
   snd out !! "sigma" = Some VNone ∧ snd out !! "rho" = Some VNone) ∧
  DRS_m_init pd_solver 5%R None DRS_tau_default empty_mstate
    = (Raise (ValueError
         "Parameter[sigma] not part of DouglasRachfordSplitting.m_init() parameter list."),
       empty_mstate) ∧
  FBS_m_init fb_solver 5%R None FBS_tau_default FBS_rho_default
    FBS_beta_default empty_mstate = (Ok tt, fbs_state) ∧
  fbs_state !! "tau" = Some VNone ∧
  fbs_state !! "rho" = Some (VReal 1) ∧
  m_step fb_solver fbs_state
    = (Raise (TypeError "unsupported operand type(s)"), fbs_state).
Proof.
  split; [reflexivity|]. split; [reflexivity|]. split; [reflexivity|].
  split.
  { unfold CPS_m_init, set_dual_variable. step_eval. by lookup_eval. }
  split.
  { reflexivity. }
  split.
  { unfold FBS_m_init, set_dual_variable, set_beta. step_eval. reflexivity. }
  unfold fbs_state.
  split; [by lookup_eval|]. split; [by lookup_eval|].
  run_eval. reflexivity.
Qed.

(** ** Inputs on which the statements of the design document fail *)

(** C7: the second step of the worked scenario.  Before it [x = -4];
    after it ["x_prev"] still holds [5], the initial point. *)
Lemma C7_counterexample :
  fst (steps fb_solver 2 fb_state) = Ok tt ∧
  snd (steps fb_solver 1 fb_state) !! "x" = Some (VArr (-4)%R) ∧
  snd (steps fb_solver 2 fb_state) !! "x_prev" = Some (VArr 5%R) ∧
  snd (steps fb_solver 2 fb_state) !! "x_prev"
    ≠ snd (steps fb_solver 1 fb_state) !! "x".
Proof.
  unfold fb_state, steps. run_eval.
  split; [reflexivity|].
  split; [do 2 f_equal; lra|].
  split; [reflexivity|].
  intros [= E]. lra.
Qed.

(** C8: a negative momentum is accepted and stored, and so is a negative
    step size supplied together with the other one. *)
Lemma C8_counterexample :
  (fst (m_init fb_solver 5%R None None None (Some (-1)%R) None empty_mstate)
     = Ok tt ∧
   snd (m_init fb_solver 5%R None None None (Some (-1)%R) None empty_mstate)
     !! "rho" = Some (VReal (-1))) ∧
  (fst (m_init fb_solver 5%R None (Some (-1)%R) (Some 2%R) None None
          empty_mstate) = Ok tt ∧
   snd (m_init fb_solver 5%R None (Some (-1)%R) (Some 2%R) None None
          empty_mstate) !! "tau" = Some (VReal (-1))).
Proof.
  split; split; run_eval; by lookup_eval.
Qed.

(** ** The general statements at explicit inputs *)

Lemma C1_m_step_equations_witness :
  m_step pd_solver pd_state
    = (Ok tt,
       <["x" := VArr (1 * (5 - 1 / 4 * (2 * 5) - 1 / 4 * (2 * 1))
                      + (1 - 1) * 5)%R]>
         (<["z" := VArr
              (1 * ((1 + 1 / 4 *
                       (2 * (2 * (5 - 1 / 4 * (2 * 5) - 1 / 4 * (2 * 1)) - 5)))
                    / (1 + 1 / 4))
               + (1 - 1) * 1)%R]> pd_state)).
Proof.
  refine (proj2
    (C1_m_step_equations pd_solver F_sq NullFunc (half_sq_norm (Some 1%nat))
       (scale_op 1 2) pd_state 5%R (Some 1%R) (1 / 4)%R 1%R
       eq_refl eq_refl eq_refl eq_refl _ _ _ _)
    eq_refl 1%R (1 / 4)%R eq_refl _);
  unfold pd_state; lookup_eval; reflexivity.
Defined.

Lemma C4_null_h_no_dual_state_witness :
  snd (steps fb_solver 3
         (snd (m_init fb_solver 5%R None None None None None empty_mstate)))
    !! "z" = Some VNone.
Proof.
  exact (proj1 (proj1 (proj2
    (C4_null_h_no_dual_state fb_solver NullFunc 5%R None None None None None
       empty_mstate 3 eq_refl eq_refl)))).
Defined.

Lemma C7_m_step_writes_x_z_only_witness :
  snd (m_step pd_solver pd_state) !! "x"
    = Some (VArr (1 * (5 - 1 / 4 * (2 * 5) - 1 / 4 * (2 * 1))
                  + (1 - 1) * 5)%R) ∧
  snd (m_step pd_solver pd_state) !! "z"
    = Some (VArr
         (1 * ((1 + 1 / 4 *
                  (2 * (2 * (5 - 1 / 4 * (2 * 5) - 1 / 4 * (2 * 1)) - 5)))
               / (1 + 1 / 4))
          + (1 - 1) * 1)%R).
Proof.
  refine (proj2
    (proj2 (C7_m_step_writes_x_z_only pd_solver pd_state)
       F_sq NullFunc (half_sq_norm (Some 1%nat)) (scale_op 1 2) 5%R
       (Some 1%R) (1 / 4)%R 1%R eq_refl eq_refl eq_refl eq_refl _ _ _ _)
    eq_refl 1%R (1 / 4)%R eq_refl _);
  unfold pd_state; lookup_eval; reflexivity.
Defined.

Lemma C8_override_checks_witness :
  (∃ msg,
     fst (m_init fb_solver 5%R None (Some (-1)%R) None None None empty_mstate)
       = Raise (ValueError msg)) ∧
  snd (m_init fb_solver 5%R None (Some (-1)%R) None None None empty_mstate)
    !! "tau" = empty_mstate !! "tau" ∧
  snd (m_init fb_solver 5%R None (Some (-1)%R) None None None empty_mstate)
    !! "sigma" = empty_mstate !! "sigma".
Proof.
  assert (-1 <= 0)%R as Hle by lra.
  pose proof (proj1 (proj2 (proj2
    (C8_override_checks fb_solver F_sq NullFunc 5%R None empty_mstate
       eq_refl eq_refl)))
    (-1)%R None None Hle) as Hall.
  exact (conj (proj1 Hall)
           (conj (proj1 (proj2 Hall)) (proj1 (proj2 (proj2 Hall))))).
Defined.

Lemma C9_dimension_mismatch_witness :
  __init__ (Some F_sq) None (Some (half_sq_norm (Some 1%nat)))
    (Some (scale_op 3 2)) =
    Raise (ValueError
      "Operator K with shape {K.shape} is inconsistent with functional h with dimension {h.shape}.)").
Proof.
  apply (C9_dimension_mismatch (Some F_sq) None (half_sq_norm (Some 1%nat))
           (scale_op 3 2) 1).
  - reflexivity.
  - simpl. discriminate.
Defined.

Lemma C10_agnostic_h_accepts_any_K_witness :
  ∃ self : Solver R,
    __init__ (Some F_sq) None (Some (half_sq_norm None)) (Some (scale_op 3 2))
      = Ok self ∧
    _K self = Some (scale_op 3 2) ∧ _h self = Some (half_sq_norm None).
Proof.
  apply (C10_agnostic_h_accepts_any_K (Some F_sq) None (half_sq_norm None)
           (scale_op 3 2)).
  reflexivity.
Defined.

(** * Further properties of the module *)

Section More.

Context {point : Type} `{Array point}.

Implicit Types (self : Solver point) (mst : gmap string (pyval point)).

(** ** Construction *)

(** X1: the constructor fails in two cases only: no term at all, or [h]
    and [K] both given with [h] declaring a domain dimension that is not
    the codomain dimension of [K]. *)
Theorem init_fails_iff (f g h : option (Func point))
    (K : option (LinOp point)) :
  is_Ok (__init__ f g h K) = false ↔
  (f = None ∧ g = None ∧ h = None) ∨
  (∃ h' K' m, h = Some h' ∧ K = Some K' ∧
     snd (shape h') = Some m ∧ fst (shape K') ≠ Some m).
Proof.
  unfold __init__. split.
  - destruct h as [h'|], K as [K'|], f, g; simpl; try done; try (by left).
    all: destruct (snd (shape h')) as [m|] eqn:Hm; simpl;
      [|by rewrite orb_true_r].
    all: rewrite orb_false_r; case_bool_decide as Hd; simpl; try done.
    all: intros _; right; by exists h', K', m.
  - intros [(-> & -> & ->)|(h' & K' & m & -> & -> & Hm & Hne)].
    + by destruct K.
    + rewrite Hm. rewrite !bool_decide_eq_false_2 by done. done.
Qed.

(** ** The update step *)

(** X2: a call of [m_step] that raises has written nothing: the state is
    the one the call started from. *)
Theorem m_step_all_or_nothing self mst (e : exn) :
  fst (m_step self mst) = Raise e → snd (m_step self mst) = mst.
Proof.
  unfold m_step. unfold_monad.
  repeat (case_match; simpl in *; simplify_eq; try done).
  all: repeat match goal with
       | Hl : <[ _ := _ ]> _ !! _ = _ |- _ =>
           rewrite lookup_insert_ne in Hl by discriminate
       end; simplify_eq; congruence.
Qed.

(** X3: before [m_init] has stored a primal point, [m_step] raises
    [KeyError] on ["x"] and writes nothing. *)
Theorem m_step_before_m_init self (g : Func point) mst :
  _g self = Some g → mst !! "x" = None →
  m_step self mst = (Raise (KeyError "x"), mst).
Proof. intros Hg Hx. unfold m_step. by known_eval. Qed.

(** On a ready state the step returns, and the state it leaves is ready. *)
Lemma m_step_ready self mst :
  ready self mst →
  fst (m_step self mst) = Ok tt ∧ ready self (snd (m_step self mst)).
Proof.
  intros ([f Hf] & [g Hg] & [K HK] & [x Hx] & [tau Ht] & [rho Hr] & Hh).
  unfold ready. rewrite Hf, Hg, HK.
  destruct (_h self) as [h|] eqn:Hhs; [|done].
  destruct (is_NullFunc h) eqn:Hnull.
  - unfold m_step. known_eval.
    split; [done|]. lookup_eval. known_eval.
    repeat split; first [done | by eexists].
  - destruct Hh as [[z Hz] [sigma Hs]].
    unfold m_step. known_eval.
    split; [done|]. lookup_eval. known_eval.
    repeat split; first [done | by eexists].
Qed.

(** X4: from a ready state any number of steps run without raising, and
    the state stays ready. *)
Theorem steps_never_raise self mst (n : nat) :
  ready self mst →
  fst (steps self n mst) = Ok tt ∧ ready self (snd (steps self n mst)).
Proof.
  revert mst. induction n as [|n IH]; intros mst Hr; [done|].
  destruct (m_step_ready self mst Hr) as [Hok Hr'].
  simpl. unfold bind.
  destruct (m_step self mst) as [[[]|e] mst']; simpl in *; [|done].
  by apply IH.
Qed.

(** ** Initialisation *)

Ltac policy_subst :=
  repeat match goal with
  | Hq : set_dual_variable ?s ?z ?m = (_, ?g) |- _ =>
      let Hs := fresh in
      pose proof (set_dual_variable_read_only s z m) as Hs;
      rewrite Hq in Hs; simpl in Hs; subst g
  | Hq : set_beta ?s ?b ?m = (_, ?g) |- _ =>
      let Hs := fresh in
      pose proof (set_beta_read_only s b m) as Hs;
      rewrite Hq in Hs; simpl in Hs; subst g
  | Hq : set_step_sizes ?s ?t ?sg ?m = (_, ?g) |- _ =>
      let Hs := fresh in
      pose proof (set_step_sizes_read_only s t sg m) as Hs;
      rewrite Hq in Hs; simpl in Hs; subst g
  | Hq : set_momentum_term ?s ?r ?m = (_, ?g) |- _ =>
      let Hs := fresh in
      pose proof (set_momentum_term_read_only s r m) as Hs;
      rewrite Hq in Hs; simpl in Hs; subst g
  end.

(** X5: whether [m_init] returns or raises, and whether [h] is null or
    not, it has stored the initial point under ["x"] and ["x_prev"]; with
    a non-null [h] it has also stored under ["z"] and ["z_prev"] the dual
    point [z0] when one is given and the primal point [x0] otherwise. *)
Theorem m_init_initial_points self (h : Func point) (x0 : point)
    (z0 : option point) (tau sigma rho beta : option R) mst :
  _h self = Some h →
  let out := snd (m_init self x0 z0 tau sigma rho beta mst) in
  let z := match z0 with Some z' => z' | None => x0 end in
  out !! "x" = Some (VArr x0) ∧ out !! "x_prev" = Some (VArr x0) ∧
  (is_NullFunc h = false →
     out !! "z" = Some (VArr z) ∧ out !! "z_prev" = Some (VArr z)).
Proof.
  intros Hh out z. subst out z.
  unfold m_init, set_dual_variable. known_eval.
  destruct (is_NullFunc h), z0 as [z'|]; known_eval.
  all: repeat (case_match; simpl in *; simplify_eq).
  all: policy_subst.
  all: by lookup_eval.
Qed.

(** A call of [m_init] that returns leaves a ready state, provided the
    four attributes are assigned. *)
Lemma m_init_ready self (x0 : point) (z0 : option point)
    (tau sigma rho beta : option R) mst :
  is_Some (_f self) → is_Some (_g self) → is_Some (_h self) →
  is_Some (_K self) →
  fst (m_init self x0 z0 tau sigma rho beta mst) = Ok tt →
  ready self (snd (m_init self x0 z0 tau sigma rho beta mst)).
Proof.
  intros Hf Hg [h Hh] HK. unfold ready. rewrite Hh.
  unfold m_init, set_dual_variable. known_eval.
  destruct (is_NullFunc h) eqn:Hnull; [|destruct z0 as [z'|]]; known_eval.
  all: repeat (case_match; simpl in *; simplify_eq); try done.
  all: policy_subst.
  all: intros _; lookup_eval.
  all: repeat split; first [done | by eexists].
Qed.

(** X6: a solver built by the constructor, either with [h] and [K] both
    absent or with a non-null [h] and a dual point [z0] supplied to
    [m_init], and initialised by a call of [m_init] that returned, runs
    any number of steps without raising, the black-box operators being
    total on the arrays they are handed.  (With [z0] omitted the dual
    variable is a copy of the primal point, whose dimension need not be
    that of the codomain of [K]: that case is left out.) *)
Theorem init_then_steps_return (f g h : option (Func point))
    (K : option (LinOp point)) self (x0 : point) (z0 : option point)
    (tau sigma rho beta : option R) mst (n : nat) :
  __init__ f g h K = Ok self →
  (h = None ∧ K = None) ∨
  (∃ h', h = Some h' ∧ is_NullFunc h' = false ∧ is_Some z0) →
  fst (m_init self x0 z0 tau sigma rho beta mst) = Ok tt →
  fst (steps self n (snd (m_init self x0 z0 tau sigma rho beta mst)))
    = Ok tt.
Proof.
  intros Hinit Hcase Hok.
  apply steps_never_raise, m_init_ready; try done.
  all: unfold __init__ in Hinit.
  all: destruct Hcase as [[-> ->]|(h' & -> & Hnn & Hz0)], f, g;
    simpl in Hinit; try discriminate.
  all: try (destruct K as [K'|]; simpl in Hinit;
            [case_match; simpl in Hinit; try discriminate|]).
  all: by simplify_eq.
Qed.

(** X7: with a null [h] and no override, [m_init] raises [ValueError]
    when the Lipschitz constant of the gradient of [f] is not finite,
    having stored the initial points and no parameter, and returns when
    it is finite; in neither case is [_K] read. *)
Theorem m_init_defaults_null_h_outcome self (f h : Func point) (x0 : point)
    (z0 : option point) mst :
  _f self = Some f → _h self = Some h → is_NullFunc h = true →
  let out := m_init self x0 z0 None None None None mst in
  (_diff_lipschitz f = Infinite →
     fst out = Raise (ValueError
       "beta: automatic inference not supported for operators with unbounded Lipschitz gradients.") ∧
     snd out !! "x" = Some (VArr x0) ∧
     snd out !! "beta" = mst !! "beta" ∧ snd out !! "tau" = mst !! "tau" ∧
     snd out !! "sigma" = mst !! "sigma" ∧ snd out !! "rho" = mst !! "rho") ∧
  (∀ dl, _diff_lipschitz f = Finite dl →
     fst out = Ok tt ∧ snd out !! "beta" = Some (VReal dl)).
Proof.
  intros Hf Hh Hnull out. subst out.
  unfold m_init, set_dual_variable, set_beta, set_step_sizes,
    set_momentum_term, py_div.
  split.
  - intros Hinf. known_eval. by lookup_eval.
  - intros dl Hdl. known_eval.
    destruct (Rlt_dec 0 dl); known_eval.
    + destruct (Req_dec_T dl 0); [lra|]. known_eval.
      destruct (Rlt_dec 0 dl); [|lra]. known_eval. by lookup_eval.
    + destruct (Rlt_dec 0 dl); [lra|]. known_eval. by lookup_eval.
Qed.

(** X8: with a null [h], a finite Lipschitz constant [b] read from [f]
    and no override, [m_init] returns with [sigma = 0]; when [b > 0] it
    has stored [tau = 2/b] and [rho = 0.9], which satisfy the conditions
    of the class documentation, [1/tau >= b/2] and
    [0 < rho < 2 - (b/2) tau]; otherwise it has stored [tau = 1] and
    [rho = 1]. *)
Theorem m_init_defaults_null_h self (f h : Func point) (b : R) (x0 : point)
    (z0 : option point) mst :
  _f self = Some f → _h self = Some h → is_NullFunc h = true →
  _diff_lipschitz f = Finite b →
  let out := m_init self x0 z0 None None None None mst in
  fst out = Ok tt ∧ snd out !! "sigma" = Some (VReal 0) ∧
  ((0 < b)%R →
     snd out !! "tau" = Some (VReal (2 / b)) ∧
     snd out !! "rho" = Some (VReal (9 / 10)) ∧
     (1 / (2 / b) >= b / 2)%R ∧
     (0 < 9 / 10 < 2 - b / 2 * (2 / b))%R) ∧
  ((b <= 0)%R →
     snd out !! "tau" = Some (VReal 1) ∧ snd out !! "rho" = Some (VReal 1)).
Proof.
  intros Hf Hh Hnull Hb out. subst out.
  unfold m_init, set_dual_variable, set_beta, set_step_sizes,
    set_momentum_term, py_div.
  known_eval. destruct (Rlt_dec 0 b) as [Hpos|Hneg]; known_eval.
  - destruct (Req_dec_T b 0) as [E|_]; [lra|]. known_eval.
    destruct (Rlt_dec 0 b); [|lra]. known_eval. lookup_eval.
    split; [done|]. split; [done|]. split; [|lra].
    intros _. split; [done|]. split; [done|].
    split.
    + apply Req_ge. field. lra.
    + replace (b / 2 * (2 / b))%R with 1%R by (field; lra). lra.
  - destruct (Rlt_dec 0 b); [lra|]. known_eval. lookup_eval.
    split; [done|]. split; [done|]. split; [lra|done].
Qed.

(** X10: with a positive [beta] and a positive [tau] supplied and no
    [sigma], [m_init] returns and stores [tau] as both step sizes; it
    reads neither the Lipschitz constant of [f] nor the operator norm of
    [K], and returns even when [_f] or [_K] is not assigned. *)
Theorem m_init_single_step_size self (h : Func point) (x0 : point)
    (z0 : option point) (t b : R) (rho : option R) mst :
  _h self = Some h → (0 < t)%R → (0 < b)%R →
  let out := m_init self x0 z0 (Some t) None rho (Some b) mst in
  fst out = Ok tt ∧
  snd out !! "tau" = Some (VReal t) ∧ snd out !! "sigma" = Some (VReal t) ∧
  snd out !! "beta" = Some (VReal b).
Proof.
  intros Hh Ht Hb out. subst out.
  unfold m_init, set_dual_variable, set_beta, set_step_sizes,
    set_momentum_term, assert_positive.
  known_eval. destruct (Rlt_dec 0 b); [|lra]. destruct (Rlt_dec 0 t); [|lra].
  destruct (is_NullFunc h), z0, rho; known_eval;
    try (destruct (Rlt_dec 0 b); [|lra]; known_eval); by lookup_eval.
Qed.

(** X11: a supplied [beta] that is zero or negative makes [m_init] raise
    [ValueError], after the initial points have been stored. *)
Theorem m_init_rejects_nonpositive_beta self (h : Func point) (x0 : point)
    (z0 : option point) (tau sigma rho : option R) (b : R) mst :
  _h self = Some h → (b <= 0)%R →
  let out := m_init self x0 z0 tau sigma rho (Some b) mst in
  fst out = Raise (ValueError "beta must be positive, got {beta}.") ∧
  snd out !! "x" = Some (VArr x0) ∧ snd out !! "beta" = mst !! "beta".
Proof.
  intros Hh Hb out. subst out.
  unfold m_init, set_dual_variable, set_beta, assert_positive.
  known_eval. destruct (Rlt_dec 0 b); [lra|].
  destruct (is_NullFunc h), z0; known_eval; by lookup_eval.
Qed.

(** ** The variants' initialisation *)

(** X12: [DouglasRachfordSplitting.m_init] can never run: whatever its
    arguments and the state, the call raises [ValueError] before the body
    of the method, and writes nothing.  Its decorator lists [sigma] and
    [rho], which the method does not have as parameters. *)
Theorem DRS_m_init_always_raises self (x0 : point) (z0 : option point)
    (tau : option R) mst :
  DRS_m_init self x0 z0 tau mst
    = (Raise (ValueError
         "Parameter[sigma] not part of DouglasRachfordSplitting.m_init() parameter list."),
       mst).
Proof. reflexivity. Qed.

(** X14: [ChambollePockSplitting.m_init] returns whenever [_h] is
    assigned, and stores [tau], [sigma] and [rho] as it is given them,
    [None] included, with no check and no default resolution.  When it
    has stored [None] for [sigma], with a non-null [h], or [None] for
    [rho], the next [m_step] raises [TypeError] and writes nothing. *)
Theorem CPS_m_init_defaults_break_step self (h : Func point) (x0 : point)
    (z0 : option point) (tau sigma rho : option R) mst :
  _h self = Some h →
  let out := CPS_m_init self x0 z0 tau sigma rho mst in
  (fst out = Ok tt ∧
   snd out !! "x" = Some (VArr x0) ∧
   snd out !! "tau" = Some (of_opt_real tau) ∧
   snd out !! "sigma" = Some (of_opt_real sigma) ∧
   snd out !! "rho" = Some (of_opt_real rho)) ∧
  (∀ (f g : Func point) (K : LinOp point),
     _f self = Some f → _g self = Some g → _K self = Some K →
     (is_NullFunc h = false ∧ sigma = None) ∨ rho = None →
     m_step self (snd out)
       = (Raise (TypeError "unsupported operand type(s)"), snd out)).
Proof.
  intros Hh out. subst out. split.
  - unfold CPS_m_init, set_dual_variable. known_eval.
    destruct (is_NullFunc h), z0; known_eval; by lookup_eval.
  - intros f g K Hf Hg HK Hcase.
    unfold CPS_m_init, set_dual_variable. known_eval.
    destruct Hcase as [[Hnull ->]| ->].
    + rewrite Hnull. destruct z0, tau, rho; known_eval;
        unfold m_step; known_eval; done.
    + destruct (is_NullFunc h) eqn:Hnull, z0, tau, sigma; known_eval;
        unfold m_step; known_eval; done.
Qed.

(** X15: [ForwardBackwardSplitting.m_init] returns exactly when
    [set_beta] does; it stores the [tau] it is given and never consults
    the step-size policy.  With [tau] and [rho] supplied, the next
    [m_step] of a solver with a null [h] is the forward-backward step
    [x = rho g.prox(x0 - tau f.grad(x0) - tau K.adjoint(None), tau)
         + (1 - rho) x0]; with [tau] left to its default [None] the next
    [m_step] raises [TypeError]. *)
Theorem FBS_m_init_then_step self (f g h : Func point) (K : LinOp point)
    (x0 : point) (z0 : option point) (tau rho beta : option R) mst :
  _f self = Some f → _g self = Some g → _h self = Some h →
  is_NullFunc h = true → _K self = Some K →
  let out := FBS_m_init self x0 z0 tau rho beta mst in
  is_Ok (fst out) = is_Ok (fst (set_beta self beta mst)) ∧
  snd out !! "tau" = Some (of_opt_real tau) ∧
  (∀ t r : R, tau = Some t → rho = Some r → fst out = Ok tt →
     let x_temp :=
       prox g
         (psub (psub x0 (pscale t (grad f x0))) (pscale t (adjoint K None)))
         t in
     m_step self (snd out)
       = (Ok tt,
          <["x" := VArr (padd (pscale r x_temp) (pscale (1 - r) x0))]>
            (snd out))) ∧
  (tau = None → fst out = Ok tt →
     m_step self (snd out)
       = (Raise (TypeError "unsupported operand type(s)"), snd out)).
Proof.
  intros Hf Hg Hh Hnull HK out. subst out.
  unfold FBS_m_init, set_dual_variable, set_beta, assert_positive.
  known_eval.
  destruct beta as [b|]; [destruct (Rlt_dec 0 b) as [Hb|Hb]|
                          destruct (_diff_lipschitz f) as [dl|]]; known_eval.
  all: lookup_eval; split; [done|]; split; [done|].
  all: split; [intros t' r' -> -> Hok; try discriminate
              |intros -> Hok; try discriminate].
  all: unfold m_step; known_eval; done.
Qed.

End More.

(** ** Forward-backward iterations on a quadratic *)

(** One step on [F(x) = a x^2 / 2] with the default parameters. *)
Lemma quad_step (a y : R) (mst : gmap string (pyval R)) :
  (0 < a)%R →
  mst !! "x" = Some (VArr y) → mst !! "z" = Some VNone →
  mst !! "tau" = Some (VReal (2 / a)) → mst !! "rho" = Some (VReal (9 / 10)) →
  m_step
    {| _f := Some (quad_func a); _g := Some NullFunc; _h := Some NullFunc;
       _K := Some NullOp |} mst
    = (Ok tt, <["x" := VArr (- 4 / 5 * y)%R]> mst).
Proof.
  intros Ha Hx Hz Ht Hr. unfold m_step. known_eval.
  do 3 f_equal. field. lra.
Qed.

(** X16: for every [a > 0] and every starting point [x0], the solver
    built for [F(x) = a x^2 / 2] alone and initialised with no override
    runs any number [n] of steps without raising, and its iterate is then
    [(-4/5)^n x0]: the distance to the minimiser 0 shrinks by the factor
    [4/5] at each step, whatever [a]. *)
Theorem quadratic_iterates (a x0 : R) (n : nat) :
  (0 < a)%R →
  let self :=
    {| _f := Some (quad_func a); _g := Some NullFunc; _h := Some NullFunc;
       _K := Some NullOp |} in
  let init := m_init self x0 None None None None None empty_mstate in
  __init__ (Some (quad_func a)) None None None = Ok self ∧
  fst init = Ok tt ∧
  fst (steps self n (snd init)) = Ok tt ∧
  snd (steps self n (snd init)) !! "x" = Some (VArr ((- 4 / 5) ^ n * x0)%R) ∧
  (Rabs ((- 4 / 5) ^ n * x0) = (4 / 5) ^ n * Rabs x0)%R.
Proof.
  intros Ha self init.
  split; [reflexivity|].
  assert (fst init = Ok tt ∧
          snd init !! "x" = Some (VArr x0) ∧ snd init !! "z" = Some VNone ∧
          snd init !! "tau" = Some (VReal (2 / a)) ∧
          snd init !! "rho" = Some (VReal (9 / 10)))
    as (Hok & Hx & Hz & Ht & Hr).
  { subst init self. run_eval. by lookup_eval. }
  split; [done|].
  assert (∀ m (mst : gmap string (pyval R)) y,
    mst !! "x" = Some (VArr y) → mst !! "z" = Some VNone →
    mst !! "tau" = Some (VReal (2 / a)) →
    mst !! "rho" = Some (VReal (9 / 10)) →
    fst (steps self m mst) = Ok tt ∧
    snd (steps self m mst) !! "x" = Some (VArr ((- 4 / 5) ^ m * y)%R))
    as Hsteps.
  { induction m as [|m IH]; intros mst y Hx' Hz' Ht' Hr'.
    - simpl. split; [done|]. rewrite Hx'. do 2 f_equal. lra.
    - simpl steps. unfold bind.
      subst self. rewrite (quad_step a y mst Ha Hx' Hz' Ht' Hr').
      destruct (IH (<["x" := VArr (- 4 / 5 * y)%R]> mst) (- 4 / 5 * y)%R)
        as [Hok' Hx'']; try (by lookup_eval).
      split; [done|]. rewrite Hx''. do 2 f_equal. simpl. lra. }
  destruct (Hsteps n (snd init) x0 Hx Hz Ht Hr) as [Hn Hxn].
  split; [done|]. split; [done|].
  rewrite Rabs_mult. f_equal.
  rewrite <- RPow_abs. f_equal.
  rewrite Rabs_left by lra. lra.
Qed.

(** ** The ReLU map *)

Lemma relu_square_contracts (x y : R) :
  ((Rmax x 0 - Rmax y 0) * (Rmax x 0 - Rmax y 0) <= (x - y) * (x - y))%R.
Proof.
  unfold Rmax.
  destruct (Rle_dec x 0) as [Hx|Hx], (Rle_dec y 0) as [Hy|Hy]; simpl.
  - pose proof (Rle_0_sqr (x - y)) as Hs. unfold Rsqr in Hs. lra.
  - assert (0 <= (- x) * (2 * y - x))%R by (apply Rmult_le_pos; lra). lra.
  - assert (0 <= (- y) * (2 * x - y))%R by (apply Rmult_le_pos; lra). lra.
  - lra.
Qed.

Lemma sum_squares_nonneg (v : list R) :
  (0 <= foldr (fun x acc => x * x + acc) 0 v)%R.
Proof. induction v as [|x v IH]; simpl; nra. Qed.

(** X17: [ReLU.apply] keeps the length of the array (the map has shape
    [(M, M)]), returns non-negative entries only, leaves an array without
    negative entry as it is, and is idempotent. *)
Theorem ReLU_apply_clips (op : ReLU) (arr : list R) :
  length (ReLU_apply op arr) = length arr ∧
  Forall (fun y => (0 <= y)%R) (ReLU_apply op arr) ∧
  (Forall (fun x => (0 <= x)%R) arr → ReLU_apply op arr = arr) ∧
  ReLU_apply op (ReLU_apply op arr) = ReLU_apply op arr.
Proof.
  unfold ReLU_apply. split; [by rewrite length_fmap|].
  assert (Forall (fun y => (0 <= y)%R) ((fun x => Rmax x 0) <$> arr)) as Hpos.
  { induction arr as [|x arr IH]; [constructor|].
    rewrite fmap_cons. constructor; [apply Rmax_r|done]. }
  assert (∀ l, Forall (fun x => (0 <= x)%R) l →
               (fun x => Rmax x 0) <$> l = l) as Hid.
  { induction 1 as [|x l Hx _ IH]; [done|].
    rewrite fmap_cons, IH. f_equal. by apply Rmax_left. }
  split; [done|]. split; [apply Hid|by apply Hid].
Qed.

(** X18: the constant returned by [ReLU.lipschitz()] is a Lipschitz
    constant of [ReLU.apply] for the Euclidean norm:
    [|apply(a) - apply(b)| <= lipschitz() |a - b|]. *)
Theorem ReLU_lipschitz_bound (op : ReLU) (a b : list R) :
  (norm2 (vsub (ReLU_apply op a) (ReLU_apply op b))
     <= ReLU_lipschitz op * norm2 (vsub a b))%R.
Proof.
  unfold ReLU_lipschitz, norm2, vsub, ReLU_apply. rewrite Rmult_1_l.
  apply sqrt_le_1_alt.
  revert b. induction a as [|x a IH]; intros [|y b]; simpl; try lra.
  apply Rplus_le_compat; [apply relu_square_contracts | apply IH].
Qed.

(** ** The further statements at explicit inputs *)

Lemma m_step_all_or_nothing_witness :
  snd (m_step no_K_solver fb_state) = fb_state.
Proof.
  apply (m_step_all_or_nothing no_K_solver fb_state (AttributeError "_K")).
  unfold fb_state. run_eval. reflexivity.
Defined.

Lemma m_step_before_m_init_witness :
  m_step fb_solver empty_mstate = (Raise (KeyError "x"), empty_mstate).
Proof.
  apply (m_step_before_m_init fb_solver NullFunc empty_mstate);
    reflexivity.
Defined.

Lemma pd_state_ready : ready pd_solver pd_state.
Proof.
  unfold ready, pd_state. simpl. lookup_eval.
  repeat split; first [done | by eexists].
Defined.

Lemma steps_never_raise_witness :
  fst (steps pd_solver 3 pd_state) = Ok tt ∧
  ready pd_solver (snd (steps pd_solver 3 pd_state)).
Proof. exact (steps_never_raise pd_solver pd_state 3 pd_state_ready). Defined.

Lemma m_init_initial_points_witness :
  snd (m_init pd_solver 5%R None None None None None empty_mstate) !! "z"
    = Some (VArr 5%R).
Proof.
  exact (proj1 (proj2 (proj2
    (m_init_initial_points pd_solver (half_sq_norm (Some 1%nat)) 5%R None
       None None None None empty_mstate eq_refl)) eq_refl)).
Defined.

Lemma init_then_steps_return_witness :
  fst (steps pd_solver 4
         (snd (m_init pd_solver 5%R (Some 1%R) (Some (1 / 4)%R)
                 (Some (1 / 4)%R) (Some 1%R) (Some 2%R) empty_mstate)))
    = Ok tt.
Proof.
  apply (init_then_steps_return (Some F_sq) None
           (Some (half_sq_norm (Some 1%nat))) (Some (scale_op 1 2))
           pd_solver 5%R (Some 1%R) (Some (1 / 4)%R) (Some (1 / 4)%R)
           (Some 1%R) (Some 2%R) empty_mstate 4).
  - reflexivity.
  - right. eexists. by repeat split.
  - run_eval. reflexivity.
Defined.

Lemma m_init_defaults_null_h_outcome_witness :
  fst (m_init fb_solver 5%R None None None None None empty_mstate) = Ok tt ∧
  snd (m_init fb_solver 5%R None None None None None empty_mstate) !! "beta"
    = Some (VReal 2).
Proof.
  exact (proj2
    (m_init_defaults_null_h_outcome fb_solver F_sq NullFunc 5%R None
       empty_mstate eq_refl eq_refl eq_refl) 2%R eq_refl).
Defined.

Lemma m_init_defaults_null_h_witness :
  snd (m_init fb_solver 5%R None None None None None empty_mstate) !! "tau"
    = Some (VReal (2 / 2)).
Proof.
  assert (0 < 2)%R as Hpos by lra.
  exact (proj1 (proj1 (proj2 (proj2
    (m_init_defaults_null_h fb_solver F_sq NullFunc 2%R 5%R None empty_mstate
       eq_refl eq_refl eq_refl eq_refl))) Hpos)).
Defined.

Lemma m_init_single_step_size_witness :
  snd (m_init no_K_solver 5%R None (Some 3%R) None None (Some 2%R)
         empty_mstate) !! "sigma" = Some (VReal 3).
Proof.
  assert (0 < 3)%R as Ht by lra. assert (0 < 2)%R as Hb by lra.
  exact (proj1 (proj2 (proj2
    (m_init_single_step_size no_K_solver NullFunc 5%R None 3%R 2%R None
       empty_mstate eq_refl Ht Hb)))).
Defined.

Lemma m_init_rejects_nonpositive_beta_witness :
  fst (m_init fb_solver 5%R None None None None (Some 0%R) empty_mstate)
    = Raise (ValueError "beta must be positive, got {beta}.").
Proof.
  assert (0 <= 0)%R as Hb by lra.
  exact (proj1
    (m_init_rejects_nonpositive_beta fb_solver NullFunc 5%R None None None
       None 0%R empty_mstate eq_refl Hb)).
Defined.

Lemma CPS_m_init_defaults_break_step_witness :
  m_step pd_solver
    (snd (CPS_m_init pd_solver 5%R None CPS_tau_default CPS_sigma_default
            CPS_rho_default empty_mstate))
    = (Raise (TypeError "unsupported operand type(s)"),
       snd (CPS_m_init pd_solver 5%R None CPS_tau_default CPS_sigma_default
              CPS_rho_default empty_mstate)).
Proof.
  exact (proj2
    (CPS_m_init_defaults_break_step pd_solver (half_sq_norm (Some 1%nat))
       5%R None CPS_tau_default CPS_sigma_default CPS_rho_default
       empty_mstate eq_refl)
    F_sq NullFunc (scale_op 1 2) eq_refl eq_refl eq_refl
    (or_intror eq_refl)).
Defined.

Lemma FBS_m_init_then_step_witness :
  snd (FBS_m_init fb_solver 5%R None (Some 1%R) FBS_rho_default
         FBS_beta_default empty_mstate) !! "tau" = Some (VReal 1).
Proof.
  exact (proj1 (proj2
    (FBS_m_init_then_step fb_solver F_sq NullFunc NullFunc NullOp 5%R None
       (Some 1%R) FBS_rho_default FBS_beta_default empty_mstate eq_refl
       eq_refl eq_refl eq_refl eq_refl))).
Defined.

Lemma quadratic_iterates_witness :
  snd (steps
         {| _f := Some (quad_func 2); _g := Some NullFunc;
            _h := Some NullFunc; _K := Some NullOp |} 3
         (snd (m_init
                 {| _f := Some (quad_func 2); _g := Some NullFunc;
                    _h := Some NullFunc; _K := Some NullOp |}
                 5%R None None None None None empty_mstate))) !! "x"
    = Some (VArr ((- 4 / 5) ^ 3 * 5)%R).
Proof.
  assert (0 < 2)%R as Ha by lra.
  exact (proj1 (proj2 (proj2 (proj2 (quadratic_iterates 2 5 3 Ha))))).
Defined.

Lemma ReLU_apply_clips_witness :
  ReLU_apply {| relu_M := 2 |} [1%R; 5%R] = [1%R; 5%R].
Proof.
  apply (proj1 (proj2 (proj2
    (ReLU_apply_clips {| relu_M := 2 |} [1%R; 5%R])))).
  repeat constructor; lra.
Defined.
